(** * qaul.net web GUI: the route table and the CI pipeline

    The repository slice holds two declarative artefacts:

    - [webgui/app/router.js]: an Ember router class with one [Router.map]
      call that declares the route table;
    - [.gitlab-ci.yml]: a GitLab CI pipeline descriptor.

    Both are programs of a small domain-specific language whose interpreter
    lives outside the repository (Ember's routing DSL, the GitLab runner and
    a POSIX shell).  Each artefact is transcribed literally (module
    [RouterJs], module [GitlabCi]); the fragment of the interpreter that
    gives the transcription its meaning is written next to it (module
    [Ember], module [Runner]) and is kept as small as the two files need. *)

Set Warnings "-register-all".
From Stdlib Require Import Ascii String.
From stdpp Require Import gmap strings list fin_maps.

Local Open Scope string_scope.
Local Open Scope list_scope.

(* ===================================================================== *)
(** * Text helpers *)
(* ===================================================================== *)

(** [split_on sep s] cuts [s] at every occurrence of [sep]; empty pieces
    are kept, as JavaScript's [String.prototype.split] does. *)
Fixpoint split_on (sep : ascii) (s : string) : list string :=
  match s with
  | EmptyString => [EmptyString]
  | String c s' =>
      if Ascii.eqb c sep then EmptyString :: split_on sep s'
      else match split_on sep s' with
           | w :: ws => String c w :: ws
           | [] => [String c EmptyString]
           end
  end.

Definition nonempty (s : string) : bool :=
  match s with EmptyString => false | String _ _ => true end.

(** The pieces of a slash-separated path; empty pieces (leading, trailing
    or doubled slashes) disappear. *)
Definition segments (s : string) : list string :=
  List.filter nonempty (split_on "/"%char s).

(** The blank-separated words of a shell command line. *)
Definition words (s : string) : list string :=
  List.filter nonempty (split_on " "%char s).

(* ===================================================================== *)
(** * Ember's routing DSL (the fragment [router.js] uses) *)
(* ===================================================================== *)

Module Ember.

(** One entry of the route table: the full dotted name, the path pattern
    relative to the parent, and the nested entries. *)
Inductive entry : Type :=
  Entry (name : string) (path : string) (children : list entry).

Definition route_name (r : entry) : string :=
  match r with Entry n _ _ => n end.
Definition route_children (r : entry) : list entry :=
  match r with Entry _ _ cs => cs end.

(** The options object of [this.route(name, options)]. *)
Record options : Type := Options { opt_path : option string }.

(** [this.route('feed')]: no options object. *)
Definition no_options : options := {| opt_path := None |}.

(** The receiver ([this]) of a mapping callback: the dotted name of the
    enclosing route, if any, and the entries pushed so far. *)
Record DSL : Type := MkDSL { parent : option string; matches : list entry }.

(** [function() { ... }] called with [this] bound to a [DSL]. *)
Definition callback : Type := DSL -> DSL.

(** A function body: the statements run in order on the same [this]. *)
Definition block (stmts : list callback) : callback :=
  fun this => fold_left (fun d s => s d) stmts this.

Definition getFullName (p : option string) (name : string) : string :=
  match p with
  | None => name
  | Some q => q +:+ "." +:+ name
  end.

(** [createRoute]: the path defaults to [/name]. *)
Definition createRoute (this : DSL) (name : string) (o : options)
    (children : list entry) : DSL :=
  let path := match opt_path o with
              | Some p => p
              | None => "/" +:+ name
              end in
  {| parent := parent this;
     matches := matches this
                  ++ [Entry (getFullName (parent this) name) path children] |}.

(** [this.route(name, options, callback)]: with a callback the nested
    entries are collected on a fresh [DSL] whose parent is this route.
    Only what the caller declares is recorded; the [index], [loading] and
    [error] routes the framework adds on its own are not declarations. *)
Definition route (name : string) (o : options) (cb : option callback)
    : callback :=
  fun this =>
    match cb with
    | Some f =>
        let dsl := f {| parent := Some (getFullName (parent this) name);
                        matches := [] |} in
        createRoute this name o (matches dsl)
    | None => createRoute this name o []
    end.

(** The router class: [extend] sets the two configuration properties,
    [map] appends a callback to [dslCallbacks]. *)
Record RouterClass : Type := MkRouterClass {
  location : string;
  rootURL : string;
  dslCallbacks : list callback
}.

Definition extend (loc root : string) : RouterClass :=
  {| location := loc; rootURL := root; dslCallbacks := [] |}.

Definition map (cb : callback) (R : RouterClass) : RouterClass :=
  {| location := location R;
     rootURL := rootURL R;
     dslCallbacks := dslCallbacks R ++ [cb] |}.

(** At start-up every registered callback runs once, in order, on an
    empty top-level [DSL]; the result is the route table. *)
Definition buildDSL (R : RouterClass) : list entry :=
  matches (block (dslCallbacks R) {| parent := None; matches := [] |}).

(** ** URL patterns *)

(** A segment that starts with a colon is a dynamic segment. *)
Definition is_dynamic (seg : string) : bool :=
  match seg with
  | String ":" _ => true
  | _ => false
  end.

Definition dynamic_name (seg : string) : option string :=
  match seg with
  | String ":" n => Some n
  | _ => None
  end.





(** Every path pattern of the table, written from the root. *)
Fixpoint full_paths_of (prefix : string) (r : entry) : list string :=
  match r with
  | Entry _ p cs =>
      (prefix +:+ p)
        :: (fix all (rs : list entry) : list string :=
              match rs with
              | [] => []
              | r' :: rs' => full_paths_of (prefix +:+ p) r' ++ all rs'
              end) cs
  end.

Definition full_paths (table : list entry) : list string :=
  flat_map (full_paths_of "") table.

(** Number of entries, nested ones included. *)
Fixpoint count_routes (r : entry) : nat :=
  match r with
  | Entry _ _ cs =>
      S ((fix sum (rs : list entry) : nat :=
            match rs with
            | [] => 0
            | r' :: rs' => count_routes r' + sum rs'
            end) cs)
  end.

Definition table_size (table : list entry) : nat :=
  list_sum (List.map count_routes table).

(** ** The running router *)

(** A router instance: the table built at start-up and the route the
    application currently shows. *)
Record Router : Type := MkRouter {
  table : list entry;
  currentRouteName : option string
}.



End Ember.

(* ===================================================================== *)
(** * [webgui/app/router.js] *)
(* ===================================================================== *)

Module RouterJs.
Import Ember.

(** [import config from './config/environment']: the file reads two
    properties of the imported object; their values are not part of the
    shown source. *)
Record environment : Type := MkEnvironment {
  locationType : string;
  env_rootURL : string
}.

(** The function passed to [Router.map] (lines 9-16). *)
Definition routes : callback :=
  block
    [ route "feed" no_options None;
      route "users" no_options
        (Some (block
          [ route "user" {| opt_path := Some "/:user_id" |} None ]));
      route "files" no_options None;
      route "settings" no_options None ].

(** The top-level statements of the module, in source order.  The two
    [import]s only bind [EmberRouter] and [config]. *)
Inductive statement : Type :=
| ConstExtend (loc root : string)
    (* const Router = EmberRouter.extend({ location, rootURL }) *)
| CallMap (cb : callback)
    (* Router.map(cb) *)
| ExportDefault.
    (* export default Router *)


(** What the module has bound while it is evaluated. *)
Record module_state : Type := MkModuleState {
  binding : option RouterClass;     (* const Router *)
  exported : option RouterClass     (* the default export *)
}.


(** One statement; [None] is a thrown error (a [const] declared twice,
    a use of [Router] before its declaration). *)
Definition exec (s : statement) (st : module_state) : option module_state :=
  match s with
  | ConstExtend loc root =>
      match binding st with
      | None => Some {| binding := Some (extend loc root);
                        exported := exported st |}
      | Some _ => None
      end
  | CallMap cb =>
      match binding st with
      | Some R => Some {| binding := Some (map cb R);
                          exported := exported st |}
      | None => None
      end
  | ExportDefault =>
      match binding st with
      | Some R => Some {| binding := binding st; exported := Some R |}
      | None => None
      end
  end.

Fixpoint run (prog : list statement) (st : module_state) : option module_state :=
  match prog with
  | [] => Some st
  | s :: rest =>
      match exec s st with
      | Some st' => run rest st'
      | None => None
      end
  end.


(** The class the module exports. *)
Definition Router (config : environment) : RouterClass :=
  map routes (extend (locationType config) (env_rootURL config)).

(** The table the framework builds from the exported class. *)
Definition route_table (config : environment) : list entry :=
  buildDSL (Router config).






End RouterJs.


(* ===================================================================== *)
(** * YAML documents *)
(* ===================================================================== *)

Module Yaml.

(** A document is a scalar, a sequence or a mapping; a mapping keeps the
    order in which its keys are written. *)
Inductive yaml : Type :=
| Str (s : string)
| Seq (items : list yaml)
| Map (entries : list (string * yaml)).

Fixpoint assoc {A : Type} (k : string) (l : list (string * A)) : option A :=
  match l with
  | [] => None
  | (k', v) :: rest => if String.eqb k k' then Some v else assoc k rest
  end.

(** [y.k]: the value under key [k] of a mapping. *)
Definition get (k : string) (y : yaml) : option yaml :=
  match y with
  | Map es => assoc k es
  | _ => None
  end.

Definition as_string (y : yaml) : option string :=
  match y with
  | Str s => Some s
  | _ => None
  end.

(** A list of scalars; a lone scalar stands for the one-element list. *)
Definition strings (y : yaml) : list string :=
  match y with
  | Str s => [s]
  | Seq items => omap as_string items
  | Map _ => []
  end.

Definition get_strings (k : string) (y : yaml) : list string :=
  match get k y with
  | Some v => strings v
  | None => []
  end.

End Yaml.

(* ===================================================================== *)
(** * [.gitlab-ci.yml] *)
(* ===================================================================== *)

Module GitlabCi.
Import Yaml.

(** Lines 1-4. *)
Definition stages : yaml :=
  Seq [ Str "test"; Str "build"; Str "publish" ].

(** Lines 7-10: [build:nightly]. *)
Definition build_nightly : yaml :=
  Map [ ("image", Str "rustlang/rust:nightly");
        ("script", Seq [ Str "cargo build" ]) ].

(** Lines 13-23. *)
Definition test_webgui : yaml :=
  Map [ ("stage", Str "test");
        ("image", Str "circleci/node:10-browsers");
        ("cache", Map [ ("key", Str "yarn");
                        ("paths", Seq [ Str "webgui/.yarn" ]) ]);
        ("script", Seq [ Str "cd webgui";
                         Str "yarn install --pure-lockfile --cache-folder .yarn";
                         Str "yarn run test" ]) ].

(** Lines 25-38. *)
Definition build_webgui : yaml :=
  Map [ ("stage", Str "build");
        ("image", Str "node:10");
        ("cache", Map [ ("key", Str "yarn");
                        ("paths", Seq [ Str "webgui/.yarn" ]) ]);
        ("script", Seq [ Str "cd webgui";
                         Str "yarn install --pure-lockfile --cache-folder .yarn";
                         Str "yarn run build --prod" ]);
        ("artifacts", Map [ ("paths", Seq [ Str "webgui/dist/" ]) ]) ].

(** Lines 40-50. *)
Definition publish_webgui : yaml :=
  Map [ ("stage", Str "publish");
        ("environment", Map [ ("name", Str "master");
                              ("url", Str "http://qaul.surge.sh/") ]);
        ("only", Seq [ Str "master" ]);
        ("image", Str "andthensome/alpine-surge-bash");
        ("script", Seq [ Str "cd webgui/dist/";
                         Str "cp index.html 200.html";
                         Str "surge --project . --domain qaul.surge.sh" ]) ].

(** The whole document. *)
Definition gitlab_ci : yaml :=
  Map [ ("stages", stages);
        ("build:nightly", build_nightly);
        ("test_webgui", test_webgui);
        ("build_webgui", build_webgui);
        ("publish_webgui", publish_webgui) ].

End GitlabCi.

(* ===================================================================== *)
(** * How a pipeline descriptor is read *)
(* ===================================================================== *)

Module Pipeline.
Import Yaml.

(** Top-level keys with a meaning of their own; every other top-level
    key names a job, unless it starts with a dot. *)
Definition global_keywords : list string :=
  [ "default"; "include"; "stages"; "variables"; "workflow";
    "image"; "services"; "cache"; "before_script"; "after_script" ].

Definition is_hidden (name : string) : bool :=
  match name with
  | String "." _ => true
  | _ => false
  end.

Definition is_job_key (name : string) : bool :=
  negb (existsb (String.eqb name) global_keywords) && negb (is_hidden name).

Definition jobs (cfg : yaml) : list (string * yaml) :=
  match cfg with
  | Map es => List.filter (fun e => is_job_key (fst e)) es
  | _ => []
  end.

(** Without a [stages] key the runner uses [build], [test], [deploy]. *)
Definition stage_list (cfg : yaml) : list string :=
  match get "stages" cfg with
  | Some y => strings y
  | None => [ "build"; "test"; "deploy" ]
  end.

(** A job without a [stage] key belongs to stage [test]. *)
Definition default_stage : string := "test".

Definition job_stage (j : yaml) : string :=
  match get "stage" j with
  | Some (Str s) => s
  | _ => default_stage
  end.

Definition job_script (j : yaml) : list string := get_strings "script" j.

(** [only]: the refs the job is created for; absent means every ref. *)
Definition job_only (j : yaml) : option (list string) :=
  strings <$> get "only" j.

Definition job_artifacts (j : yaml) : list string :=
  match get "artifacts" j with
  | Some a => get_strings "paths" a
  | None => []
  end.

(** [cache]: the key (by default [default]) and the cached paths. *)
Definition job_cache (j : yaml) : option (string * list string) :=
  match get "cache" j with
  | Some c =>
      Some (match get "key" c with
            | Some (Str k) => k
            | _ => "default"
            end,
            get_strings "paths" c)
  | None => None
  end.

(** The file names refs by plain branch names only, so a pattern
    matches the ref of that very name. *)
Definition ref_matches (ref pat : string) : bool := String.eqb pat ref.

Definition runs_on (ref : string) (j : yaml) : bool :=
  match job_only j with
  | None => true
  | Some pats => existsb (ref_matches ref) pats
  end.

Fixpoint index_of (s : string) (l : list string) : option nat :=
  match l with
  | [] => None
  | x :: rest => if String.eqb s x then Some 0 else S <$> index_of s rest
  end.

(** Position of a stage in the declared order. *)
Definition stage_index (cfg : yaml) (s : string) : option nat :=
  index_of s (stage_list cfg).

(** [s] comes strictly before [t] in the declared order. *)
Definition stage_before (cfg : yaml) (s t : string) : Prop :=
  ∃ a b, stage_index cfg s = Some a ∧ stage_index cfg t = Some b ∧ a < b.

(** The jobs created for a ref, stage by stage in the declared order;
    within a stage, in the order of the file. *)
Definition jobs_of_stage (cfg : yaml) (ref s : string) : list (string * yaml) :=
  List.filter (fun e => runs_on ref (snd e) && String.eqb (job_stage (snd e)) s)
              (jobs cfg).

Definition plan (cfg : yaml) (ref : string) : list (list (string * yaml)) :=
  List.map (jobs_of_stage cfg ref) (stage_list cfg).

(** ** Scripts as straight-line command lists *)







End Pipeline.

(* ===================================================================== *)
(** * The job runner *)
(* ===================================================================== *)

Module Runner.
Import Yaml Pipeline.

(** ** Work trees

    A work tree maps the path of every regular file, cut into segments
    and relative to the project directory, to the file's content.
    Directories are implied by the files below them, as in a git
    checkout or an artifact archive. *)

Local Abbreviation tree := (gmap (list string) string).

Definition step_into (dir : list string) (seg : string) : list string :=
  if String.eqb seg "." then dir
  else if String.eqb seg ".." then removelast dir
  else dir ++ [seg].

(** A relative path, read from directory [dir]. *)
Definition resolve (dir : list string) (p : string) : list string :=
  fold_left step_into (segments p) dir.

(** [d] is the project directory or has a file somewhere below it. *)
Definition is_dir (d : list string) (fs : tree) : bool :=
  bool_decide (d = [] ∨ map_Exists (λ k _, d `prefix_of` k ∧ d ≠ k) fs).

Fixpoint strip_prefix (d k : list string) : option (list string) :=
  match d, k with
  | [], _ => Some k
  | _ :: _, [] => None
  | x :: d', y :: k' => if String.eqb x y then strip_prefix d' k' else None
  end.

(** The files below directory [d], under their paths relative to [d]. *)
Definition subtree (d : list string) (fs : tree) : tree :=
  map_fold (λ k v acc,
              match strip_prefix d k with
              | Some (s :: k') => <[s :: k' := v]> acc
              | _ => acc
              end) ∅ fs.

Definition under (dirs : list (list string)) (k : list string) : Prop :=
  Exists (λ d, d `prefix_of` k) dirs.

#[global] Instance under_dec dirs k : Decision (under dirs k).
Proof. unfold under. apply _. Defined.

(** The part of a work tree selected by a [paths:] list. *)
Definition keep (paths : list string) (fs : tree) : tree :=
  filter (λ kv, under (segments <$> paths) kv.1) fs.

(** ** The world outside the descriptor

    [tool argv dir fs] is what a program other than the shell built-ins
    leaves of the work tree [fs] when started in [dir], or [None] when it
    exits with an error.  [upload_ok domain site] tells whether the
    hosting service accepts the upload. *)
Record world : Type := MkWorld {
  tool : list string → list string → tree → option tree;
  upload_ok : string → tree → bool
}.

(** ** Shell *)

Record machine : Type := MkMachine {
  cwd : list string;
  files : tree;
  sites : list (string * tree)     (* uploads so far: domain, content *)
}.

Fixpoint flag_value (flag : string) (args : list string) : option string :=
  match args with
  | [] => None
  | f :: rest =>
      match rest with
      | [] => None
      | v :: _ => if String.eqb f flag then Some v else flag_value flag rest
      end
  end.

(** One command, already cut into words; [None] is a non-zero exit. *)
Definition exec_cmd (w : world) (argv : list string) (m : machine)
    : option machine :=
  match argv with
  | [] => Some m
  | prog :: args =>
      if String.eqb prog "cd" then
        match args with
        | [d] =>
            let t := resolve (cwd m) d in
            if is_dir t (files m)
            then Some {| cwd := t; files := files m; sites := sites m |}
            else None
        | _ => None
        end
      else if String.eqb prog "cp" then
        match args with
        | [a; b] =>
            match files m !! resolve (cwd m) a with
            | Some c =>
                Some {| cwd := cwd m;
                        files := <[resolve (cwd m) b := c]> (files m);
                        sites := sites m |}
            | None => None
            end
        | _ => None
        end
      else if String.eqb prog "surge" then
        match flag_value "--project" args, flag_value "--domain" args with
        | Some p, Some d =>
            let site := subtree (resolve (cwd m) p) (files m) in
            if upload_ok w d site
            then Some {| cwd := cwd m; files := files m;
                         sites := sites m ++ [(d, site)] |}
            else None
        | _, _ => None
        end
      else
        match tool w argv (cwd m) (files m) with
        | Some fs => Some {| cwd := cwd m; files := fs; sites := sites m |}
        | None => None
        end
  end.

(** The commands run in order; the first failure ends the script. *)
Fixpoint run_script (w : world) (script : list string) (m : machine)
    : machine * bool :=
  match script with
  | [] => (m, true)
  | c :: rest =>
      match exec_cmd w (words c) m with
      | Some m' => run_script w rest m'
      | None => (m, false)
      end
  end.

(** ** Jobs *)

(** What the log keeps of one job. *)
Record job_run : Type := MkJobRun {
  jr_name : string;
  jr_stage : string;
  jr_workspace : tree;     (* the work tree the script started on *)
  jr_end : machine;        (* where the script stopped *)
  jr_ok : bool
}.

Record pipeline_state : Type := MkPipelineState {
  artifacts : tree;                (* collected from finished jobs *)
  caches : gmap string tree;       (* by cache key *)
  published : list (string * tree);
  log : list job_run
}.

Definition restored_cache (j : yaml) (st : pipeline_state) : tree :=
  match job_cache j with
  | Some (key, _) => default ∅ (caches st !! key)
  | None => ∅
  end.

(** A job starts in the project directory on the checkout, overlaid with
    its cache and then with the artifacts of the earlier stages. *)
Definition workspace (checkout base : tree) (j : yaml) (st : pipeline_state)
    : tree :=
  base ∪ (restored_cache j st ∪ checkout).

Definition job_record (w : world) (checkout base : tree)
    (j : string * yaml) (st : pipeline_state) : job_run :=
  let ws := workspace checkout base (snd j) st in
  let r := run_script w (job_script (snd j))
             {| cwd := []; files := ws; sites := published st |} in
  {| jr_name := fst j;
     jr_stage := job_stage (snd j);
     jr_workspace := ws;
     jr_end := fst r;
     jr_ok := snd r |}.

(** A successful job hands on its artifacts and saves its cache. *)
Definition commit (j : yaml) (r : job_run) (st : pipeline_state)
    : pipeline_state :=
  if jr_ok r then
    {| artifacts := keep (job_artifacts j) (files (jr_end r)) ∪ artifacts st;
       caches := match job_cache j with
                 | Some (key, paths) =>
                     <[key := keep paths (files (jr_end r))]> (caches st)
                 | None => caches st
                 end;
       published := sites (jr_end r);
       log := log st ++ [r] |}
  else
    {| artifacts := artifacts st;
       caches := caches st;
       published := sites (jr_end r);
       log := log st ++ [r] |}.

Definition run_job (w : world) (checkout base : tree)
    (j : string * yaml) (st : pipeline_state) : pipeline_state * bool :=
  let r := job_record w checkout base j st in
  (commit (snd j) r st, jr_ok r).

(** The jobs of one stage: each starts from the artifacts of the earlier
    stages ([base]), in a work tree of its own, so that the order in which
    the runner schedules them within the stage shows in the log only; all
    of them run, and the stage succeeds when all do. *)
Fixpoint run_jobs (w : world) (checkout base : tree)
    (js : list (string * yaml)) (st : pipeline_state)
    : pipeline_state * bool :=
  match js with
  | [] => (st, true)
  | j :: rest =>
      let r1 := run_job w checkout base j st in
      let r2 := run_jobs w checkout base rest (fst r1) in
      (fst r2, snd r1 && snd r2)
  end.

(** Stage after stage; a failed stage ends the pipeline. *)
Fixpoint run_stages (w : world) (checkout : tree)
    (todo : list (list (string * yaml))) (st : pipeline_state)
    : pipeline_state :=
  match todo with
  | [] => st
  | js :: rest =>
      let r := run_jobs w checkout (artifacts st) js st in
      if snd r then run_stages w checkout rest (fst r) else fst r
  end.

Definition start (caches0 : gmap string tree) : pipeline_state :=
  {| artifacts := ∅; caches := caches0; published := []; log := [] |}.

(** One run of the pipeline [cfg] for the ref [ref]. *)
Definition run_pipeline (w : world) (cfg : yaml) (ref : string)
    (checkout : tree) (caches0 : gmap string tree) : pipeline_state :=
  run_stages w checkout (plan cfg ref) (start caches0).

End Runner.


(* ===================================================================== *)
(** * The job executions of one run of [.gitlab-ci.yml] *)
(* ===================================================================== *)

(** The pipeline has four jobs in three stages, so a run consists of at
    most the four executions below; each is named with the state it
    leaves.  [run_pipeline_unfold] shows that every run is made of them. *)
Module Run.
Import Yaml GitlabCi Pipeline Runner.

(** The directory the build leaves the site in. *)
Definition dist : list string := [ "webgui"; "dist" ].


(** Every entry of [after] was already in [before], or is the [yarn]
    entry and holds files below [webgui/.yarn] only. *)
Definition cache_confined
    (before after : gmap string (gmap (list string) string)) : Prop :=
  ∀ key t,
    after !! key = Some t →
    before !! key = Some t
    ∨ (key = "yarn"
       ∧ ∀ k, is_Some (t !! k) → segments "webgui/.yarn" `prefix_of` k).

Section Run.
Variable w : world.
Variable checkout : gmap (list string) string.
Variable caches0 : gmap string (gmap (list string) string).

Definition s0 : pipeline_state := start caches0.

(** Stage [test]. *)
Definition r_nightly : job_run :=
  job_record w checkout (artifacts s0) ("build:nightly", build_nightly) s0.
Definition s_nightly : pipeline_state := commit build_nightly r_nightly s0.

Definition r_test : job_run :=
  job_record w checkout (artifacts s0) ("test_webgui", test_webgui) s_nightly.
Definition s_test : pipeline_state := commit test_webgui r_test s_nightly.

(** Stage [build]. *)
Definition r_build : job_run :=
  job_record w checkout (artifacts s_test) ("build_webgui", build_webgui) s_test.
Definition s_build : pipeline_state := commit build_webgui r_build s_test.

(** Stage [publish]. *)
Definition r_publish : job_run :=
  job_record w checkout (artifacts s_build)
             ("publish_webgui", publish_webgui) s_build.
Definition s_publish : pipeline_state :=
  commit publish_webgui r_publish s_build.

End Run.
End Run.


(* ===================================================================== *)
(** * A sample world *)
(* ===================================================================== *)

(** A world in which every tool succeeds: [yarn install] fills the cache
    folder it is given, [yarn run build] writes the site's entry page,
    every other tool leaves the work tree alone, and the hosting service
    accepts every upload. *)
Module Sample.
Import Runner.

Definition tool (argv dir : list string) (fs : gmap (list string) string)
    : option (gmap (list string) string) :=
  if bool_decide (argv = [ "yarn"; "install"; "--pure-lockfile";
                           "--cache-folder"; ".yarn" ])
  then Some (<[dir ++ [ ".yarn"; "v4"; "ember-source.tgz" ] := "tarball"]> fs)
  else if bool_decide (argv = [ "yarn"; "run"; "build"; "--prod" ])
  then Some (<[dir ++ [ "dist"; "index.html" ] := "<!DOCTYPE html>"]> fs)
  else Some fs.

Definition sample_world : world :=
  {| Runner.tool := tool; upload_ok := fun _ _ => true |}.

Definition sample_checkout : gmap (list string) string :=
  {[ [ "webgui"; "package.json" ] := "{}";
     [ "webgui"; "yarn.lock" ] := "# yarn lockfile v1";
     [ "Cargo.toml" ] := "[workspace]" ]}.



End Sample.

(* ===================================================================== *)
(** * Properties of the route table *)
(* ===================================================================== *)

Section RouteTable.
Import Ember RouterJs.
Variable config : environment.

(** The table is the same whatever the imported configuration holds. *)
Lemma route_table_eq :
  route_table config =
    [ Entry "feed" "/feed" [];
      Entry "users" "/users" [ Entry "users.user" "/:user_id" [] ];
      Entry "files" "/files" [];
      Entry "settings" "/settings" [] ].
Proof. reflexivity. Qed.



(** A statement other than a declaration of [Router] or a [map] call
    leaves the bound class alone. *)
Lemma exec_export_binding (st st' : module_state) :
  exec ExportDefault st = Some st' → binding st' = binding st.
Proof.
  unfold exec. destruct (binding st) eqn:E; intros H; simplify_eq.
  simpl. congruence.
Qed.


(** C1. The route table declared by [Router.map] holds exactly the
    mappings [feed], [users], [users/:user_id], [files] and [settings]:
    four top-level routes, in this order, and one child of [users] whose
    path is the single dynamic segment [/:user_id]; five entries in all,
    so nothing else is declared. *)
Theorem route_table_exact :
  route_table config =
    [ Entry "feed" "/feed" [];
      Entry "users" "/users" [ Entry "users.user" "/:user_id" [] ];
      Entry "files" "/files" [];
      Entry "settings" "/settings" [] ]
  ∧ full_paths (route_table config) =
      [ "/feed"; "/users"; "/users/:user_id"; "/files"; "/settings" ]
  ∧ route_name <$> route_table config = [ "feed"; "users"; "files"; "settings" ]
  ∧ length (route_table config) = 4
  ∧ table_size (route_table config) = 5
  ∧ route_children <$> route_table config =
      [ []; [ Entry "users.user" "/:user_id" [] ]; []; [] ]
  ∧ segments "/:user_id" = [ ":user_id" ]
  ∧ is_dynamic ":user_id" = true
  ∧ dynamic_name ":user_id" = Some "user_id".
Proof.
  rewrite route_table_eq.
  by repeat split.
Qed.



End RouteTable.


(* ===================================================================== *)
(** * Work-tree lemmas *)
(* ===================================================================== *)

Section WorkTrees.
Import Runner.
Implicit Types (fs : gmap (list string) string) (d k : list string).

Lemma strip_prefix_Some d k k' :
  strip_prefix d k = Some k' ↔ k = d ++ k'.
Proof.
  revert k. induction d as [|x d IH]; intros k; simpl.
  - split; intros; simplify_eq; done.
  - destruct k as [|y k]; [split; intros; simplify_eq|].
    destruct (String.eqb_spec x y) as [->|Hne].
    + rewrite IH. split; intros; simplify_eq; done.
    + split; intros; simplify_eq.
Qed.

(** A file of the subtree is the file of that relative path below [d]. *)
Lemma subtree_lookup d fs s k :
  subtree d fs !! (s :: k) = fs !! (d ++ s :: k).
Proof.
  unfold subtree.
  apply (map_fold_weak_ind
           (λ acc m, acc !! (s :: k) = m !! (d ++ s :: k))).
  - by rewrite !lookup_empty.
  - intros i x m acc Hi IH.
    destruct (strip_prefix d i) as [[|s' k']|] eqn:E.
    + apply strip_prefix_Some in E as ->.
      rewrite lookup_insert_ne; [done|].
      intros ?%(inj (app d)). done.
    + apply strip_prefix_Some in E as ->.
      destruct (decide (s' :: k' = s :: k)) as [->|Hne].
      * by rewrite !lookup_insert_eq.
      * rewrite !lookup_insert_ne; [done| |done].
        intros ?%(inj (app d)). done.
    + rewrite lookup_insert_ne; [done|].
      intros ->. by rewrite (proj2 (strip_prefix_Some d _ (s :: k))) in E.
Qed.

Lemma keep_lookup_Some paths fs k c :
  keep paths fs !! k = Some c ↔
  fs !! k = Some c ∧ under (segments <$> paths) k.
Proof. unfold keep. by rewrite map_lookup_filter_Some. Qed.

(** A job that lists no paths keeps nothing. *)
Lemma keep_nil fs : keep [] fs = ∅.
Proof.
  apply map_eq. intros k. rewrite lookup_empty.
  apply eq_None_not_Some. intros [c Hc].
  apply keep_lookup_Some in Hc as [_ Hu]. by apply Exists_nil in Hu.
Qed.

(** A directory with a file in it is a directory. *)
Lemma is_dir_file d s k fs c :
  fs !! (d ++ s :: k) = Some c → is_dir d fs = true.
Proof.
  intros H. unfold is_dir. apply bool_decide_eq_true. right.
  exists (d ++ s :: k), c. split; [done|]. split.
  - by apply prefix_app_r.
  - intros Heq. apply (f_equal length) in Heq.
    rewrite length_app in Heq. simpl in Heq. lia.
Qed.

End WorkTrees.

(* ===================================================================== *)
(** * Reading [.gitlab-ci.yml] *)
(* ===================================================================== *)

Section Reading.
Import Yaml GitlabCi Pipeline.

Lemma stage_list_gitlab_ci :
  stage_list gitlab_ci = [ "test"; "build"; "publish" ].
Proof. reflexivity. Qed.

Lemma jobs_gitlab_ci :
  jobs gitlab_ci =
    [ ("build:nightly", build_nightly); ("test_webgui", test_webgui);
      ("build_webgui", build_webgui); ("publish_webgui", publish_webgui) ].
Proof. reflexivity. Qed.

Lemma runs_on_publish ref :
  runs_on ref publish_webgui = String.eqb "master" ref.
Proof. unfold runs_on. simpl. unfold ref_matches. apply orb_false_r. Qed.

(** The jobs created for a ref: [publish_webgui] for [master] only. *)
Lemma plan_gitlab_ci ref :
  plan gitlab_ci ref =
    [ [ ("build:nightly", build_nightly); ("test_webgui", test_webgui) ];
      [ ("build_webgui", build_webgui) ];
      if String.eqb "master" ref
      then [ ("publish_webgui", publish_webgui) ] else [] ].
Proof.
  unfold plan, jobs_of_stage.
  rewrite stage_list_gitlab_ci, jobs_gitlab_ci. simpl List.map.
  unfold List.filter. simpl snd.
  rewrite runs_on_publish.
  change (runs_on ref build_nightly) with true.
  change (runs_on ref test_webgui) with true.
  change (runs_on ref build_webgui) with true.
  change (job_stage build_nightly) with "test".
  change (job_stage test_webgui) with "test".
  change (job_stage build_webgui) with "build".
  change (job_stage publish_webgui) with "publish".
  rewrite andb_true_r.
  destruct (String.eqb "master" ref); reflexivity.
Qed.

Lemma jobs_of_stage_test ref :
  jobs_of_stage gitlab_ci ref "test" =
    [ ("build:nightly", build_nightly); ("test_webgui", test_webgui) ].
Proof.
  unfold jobs_of_stage. rewrite jobs_gitlab_ci.
  unfold List.filter. simpl snd.
  change (job_stage publish_webgui) with "publish".
  change (String.eqb "publish" "test") with false.
  rewrite !andb_false_r. reflexivity.
Qed.

End Reading.

(* ===================================================================== *)
(** * The shape of a run *)
(* ===================================================================== *)

Section RunShape.
Import Yaml GitlabCi Pipeline Runner Run.
Variable w : world.
Variable checkout : gmap (list string) string.
Variable caches0 : gmap string (gmap (list string) string).

Local Abbreviation r1 := (r_nightly w checkout caches0).
Local Abbreviation r2 := (r_test w checkout caches0).
Local Abbreviation r3 := (r_build w checkout caches0).
Local Abbreviation r4 := (r_publish w checkout caches0).

(** Every run is built from the four executions: the two jobs of stage
    [test] always run; [build_webgui] runs when both succeeded;
    [publish_webgui] runs when that succeeded too and the ref is
    [master]. *)
Lemma run_pipeline_unfold ref :
  run_pipeline w gitlab_ci ref checkout caches0 =
    if jr_ok r1 && jr_ok r2 then
      if jr_ok r3 then
        if String.eqb "master" ref
        then s_publish w checkout caches0
        else s_build w checkout caches0
      else s_build w checkout caches0
    else s_test w checkout caches0.
Proof.
  unfold run_pipeline. rewrite plan_gitlab_ci.
  cbn [run_stages run_jobs run_job fst snd].
  fold (s0 caches0).
  fold r1. fold (s_nightly w checkout caches0).
  fold r2. fold (s_test w checkout caches0).
  rewrite andb_true_r.
  destruct (jr_ok r1 && jr_ok r2); [|reflexivity].
  fold r3. fold (s_build w checkout caches0). rewrite andb_true_r.
  destruct (jr_ok r3); [|reflexivity].
  destruct (String.eqb "master" ref); [|reflexivity].
  cbn [run_stages run_jobs run_job fst snd].
  fold r4. fold (s_publish w checkout caches0).
  rewrite andb_true_r. destruct (jr_ok r4); reflexivity.
Qed.

Lemma log_commit j r st : log (commit j r st) = log st ++ [r].
Proof. unfold commit. by destruct (jr_ok r). Qed.

Lemma log_s_test : log (s_test w checkout caches0) = [ r1; r2 ].
Proof. unfold s_test, s_nightly. by rewrite !log_commit. Qed.

Lemma log_s_build : log (s_build w checkout caches0) = [ r1; r2; r3 ].
Proof. unfold s_build. by rewrite log_commit, log_s_test. Qed.

Lemma log_s_publish : log (s_publish w checkout caches0) = [ r1; r2; r3; r4 ].
Proof. unfold s_publish. by rewrite log_commit, log_s_build. Qed.

(** The three possible logs of a run. *)
Lemma log_cases ref :
  let l := log (run_pipeline w gitlab_ci ref checkout caches0) in
  l = [ r1; r2 ]
  ∨ (jr_ok r1 = true ∧ jr_ok r2 = true ∧ l = [ r1; r2; r3 ])
  ∨ (jr_ok r1 = true ∧ jr_ok r2 = true ∧ jr_ok r3 = true
     ∧ ref = "master" ∧ l = [ r1; r2; r3; r4 ]).
Proof.
  intros l. subst l. rewrite run_pipeline_unfold.
  destruct (jr_ok r1) eqn:E1, (jr_ok r2) eqn:E2; cbn [andb];
    try (left; apply log_s_test).
  destruct (jr_ok r3) eqn:E3.
  - destruct (String.eqb "master" ref) eqn:Eref.
    + apply String.eqb_eq in Eref as <-.
      right; right. by rewrite log_s_publish.
    + right; left. by rewrite log_s_build.
  - right; left. by rewrite log_s_build.
Qed.

End RunShape.

(* ===================================================================== *)
(** * Scripts *)
(* ===================================================================== *)

Section Scripts.
Import Yaml GitlabCi Pipeline Runner Run.
Variable w : world.

Lemma exec_cd d m :
  exec_cmd w [ "cd"; d ] m =
    if is_dir (resolve (cwd m) d) (files m)
    then Some {| cwd := resolve (cwd m) d; files := files m; sites := sites m |}
    else None.
Proof. reflexivity. Qed.

Lemma exec_cp a b m :
  exec_cmd w [ "cp"; a; b ] m =
    match files m !! resolve (cwd m) a with
    | Some c => Some {| cwd := cwd m;
                        files := <[resolve (cwd m) b := c]> (files m);
                        sites := sites m |}
    | None => None
    end.
Proof. reflexivity. Qed.

Lemma exec_surge d m :
  exec_cmd w [ "surge"; "--project"; "."; "--domain"; d ] m =
    if upload_ok w d (subtree (resolve (cwd m) ".") (files m))
    then Some {| cwd := cwd m; files := files m;
                 sites := sites m
                          ++ [ (d, subtree (resolve (cwd m) ".") (files m)) ] |}
    else None.
Proof. reflexivity. Qed.

(** Only [surge] uploads. *)
Lemma exec_cmd_sites argv m m' :
  head argv ≠ Some "surge" →
  exec_cmd w argv m = Some m' → sites m' = sites m.
Proof.
  intros Hhead. destruct argv as [|prog args]; simpl.
  { intros; by simplify_eq. }
  destruct (String.eqb prog "cd").
  { destruct args as [|d [|? ?]]; try done.
    destruct (is_dir _ _); intros; by simplify_eq. }
  destruct (String.eqb prog "cp").
  { destruct args as [|a [|b [|? ?]]]; try done.
    destruct (files m !! _); intros; by simplify_eq. }
  destruct (String.eqb_spec prog "surge") as [->|_]; [done|].
  destruct (tool w _ _ _); intros; by simplify_eq.
Qed.

Lemma run_script_sites script m :
  Forall (λ c, head (words c) ≠ Some "surge") script →
  sites (run_script w script m).1 = sites m.
Proof.
  revert m. induction script as [|c script IH]; intros m Hs; [done|].
  apply Forall_cons in Hs as [Hc Hs]. simpl.
  destruct (exec_cmd w (words c) m) as [m'|] eqn:E; [|done].
  rewrite IH by done. by eapply exec_cmd_sites.
Qed.

(** A script is run as the sequence it is: what runs [a ++ b] is [a],
    then [b] unless [a] failed. *)
Lemma run_script_app a b m :
  run_script w (a ++ b) m =
    let r := run_script w a m in
    if r.2 then run_script w b r.1 else r.
Proof.
  revert m. induction a as [|c a IH]; intros m; [done|]. simpl.
  destruct (exec_cmd w (words c) m) as [m'|]; [apply IH|done].
Qed.

(** The whole behaviour of the [publish_webgui] script, started in the
    project directory. *)
Lemma publish_script_run m :
  cwd m = [] →
  run_script w (job_script publish_webgui) m =
    if is_dir dist (files m) then
      let m1 := {| cwd := dist; files := files m; sites := sites m |} in
      match files m !! (dist ++ [ "index.html" ]) with
      | Some c =>
          let fs := <[dist ++ [ "200.html" ] := c]> (files m) in
          let m2 := {| cwd := dist; files := fs; sites := sites m |} in
          if upload_ok w "qaul.surge.sh" (subtree dist fs)
          then ({| cwd := dist; files := fs;
                   sites := sites m ++ [ ("qaul.surge.sh", subtree dist fs) ] |},
                true)
          else (m2, false)
      | None => (m1, false)
      end
    else (m, false).
Proof.
  intros Hcwd.
  change (job_script publish_webgui)
    with [ "cd webgui/dist/"; "cp index.html 200.html";
           "surge --project . --domain qaul.surge.sh" ].
  cbn [run_script].
  change (words "cd webgui/dist/") with [ "cd"; "webgui/dist/" ].
  change (words "cp index.html 200.html") with [ "cp"; "index.html"; "200.html" ].
  change (words "surge --project . --domain qaul.surge.sh")
    with [ "surge"; "--project"; "."; "--domain"; "qaul.surge.sh" ].
  rewrite exec_cd, Hcwd.
  change (resolve [] "webgui/dist/") with dist.
  destruct (is_dir dist (files m)); [|done].
  rewrite exec_cp. cbn [cwd files sites].
  change (resolve dist "index.html") with (dist ++ [ "index.html" ]).
  change (resolve dist "200.html") with (dist ++ [ "200.html" ]).
  destruct (files m !! (dist ++ [ "index.html" ])) as [c|]; [|done].
  rewrite exec_surge. cbn [cwd files sites].
  change (resolve dist ".") with dist.
  by destruct (upload_ok w _ _).
Qed.

End Scripts.

(* ===================================================================== *)
(** * Properties of the pipeline *)
(* ===================================================================== *)

Section PipelineClaims.
Import Yaml GitlabCi Pipeline Runner Run.
Variable w : world.
Variable checkout : gmap (list string) string.
Variable caches0 : gmap string (gmap (list string) string).

Local Abbreviation r1 := (r_nightly w checkout caches0).
Local Abbreviation r2 := (r_test w checkout caches0).
Local Abbreviation r3 := (r_build w checkout caches0).
Local Abbreviation r4 := (r_publish w checkout caches0).

(** Destructs membership in, or a lookup into, an explicit list. *)
Local Ltac in_list H :=
  repeat (apply elem_of_cons in H as [-> | H]);
  [ .. | by apply elem_of_nil in H ].

Local Ltac by_log_cases ref l Hl :=
  destruct (log_cases w checkout caches0 ref)
    as [Hl | [(? & ? & Hl) | (? & ? & ? & ? & Hl)]];
  fold l in Hl.

(** C2. The stage list is exactly [test], [build], [publish]; every job
    is assigned to one of these stages; in every run each execution is
    that of a declared job in its stage, and every job of an earlier
    stage is executed before every job of a later one. *)
Theorem stage_order ref :
  let l := log (run_pipeline w gitlab_ci ref checkout caches0) in
  stage_list gitlab_ci = [ "test"; "build"; "publish" ]
  ∧ Forall (λ j, job_stage j.2 ∈ stage_list gitlab_ci) (jobs gitlab_ci)
  ∧ Forall (λ r, (jr_name r, jr_stage r)
                 ∈ (λ j, (j.1, job_stage j.2)) <$> jobs gitlab_ci) l
  ∧ (∀ i j ri rj,
       l !! i = Some ri → l !! j = Some rj →
       stage_before gitlab_ci (jr_stage ri) (jr_stage rj) → i < j).
Proof.
  intros l.
  split; [reflexivity|]. split; [|split].
  - rewrite jobs_gitlab_ci. repeat constructor; compute_done.
  - rewrite jobs_gitlab_ci.
    by_log_cases ref l Hl; rewrite Hl; repeat constructor; compute_done.
  - intros i j ri rj Hi Hj (a & b & Ha & Hb & Hab).
    by_log_cases ref l Hl; rewrite Hl in Hi, Hj;
      repeat (destruct i as [|i]; simplify_eq/=);
      repeat (destruct j as [|j]; simplify_eq/=);
      try lia; vm_compute in Ha, Hb; simplify_eq; lia.
Qed.

Lemma published_commit j r st : published (commit j r st) = sites (jr_end r).
Proof. unfold commit. by destruct (jr_ok r). Qed.

(** A job whose script never calls [surge] publishes nothing. *)
Lemma job_record_sites base j st :
  Forall (λ c, head (words c) ≠ Some "surge") (job_script j.2) →
  sites (jr_end (job_record w checkout base j st)) = published st.
Proof. intros H. unfold job_record. simpl. by rewrite run_script_sites. Qed.

Lemma published_s_build : published (s_build w checkout caches0) = [].
Proof.
  unfold s_build, r_build. rewrite published_commit, job_record_sites.
  2: { repeat constructor; compute_done. }
  unfold s_test, r_test. rewrite published_commit, job_record_sites.
  2: { repeat constructor; compute_done. }
  unfold s_nightly, r_nightly. rewrite published_commit, job_record_sites.
  2: { repeat constructor; compute_done. }
  reflexivity.
Qed.

Lemma published_s_test : published (s_test w checkout caches0) = [].
Proof.
  unfold s_test, r_test. rewrite published_commit, job_record_sites.
  2: { repeat constructor; compute_done. }
  unfold s_nightly, r_nightly. rewrite published_commit, job_record_sites.
  2: { repeat constructor; compute_done. }
  reflexivity.
Qed.

(** C3. [publish_webgui] is created for the ref [master] only: a run
    for any other ref never executes it, consists of jobs of the stages
    [test] and [build] alone (at most the three of them, in order), and
    publishes nothing. *)
Theorem publish_only_on_master ref :
  ref ≠ "master" →
  let run := run_pipeline w gitlab_ci ref checkout caches0 in
  job_only publish_webgui = Some [ "master" ]
  ∧ Forall (λ r, jr_name r ≠ "publish_webgui") (log run)
  ∧ Forall (λ r, jr_stage r = "test" ∨ jr_stage r = "build") (log run)
  ∧ (jr_name <$> log run)
      `prefix_of` [ "build:nightly"; "test_webgui"; "build_webgui" ]
  ∧ published run = [].
Proof.
  intros Href run. split; [reflexivity|].
  assert (log run = [ r1; r2 ] ∨ log run = [ r1; r2; r3 ]) as Hlog.
  { by_log_cases ref (log run) Hl; auto. done. }
  split; [|split; [|split]].
  - destruct Hlog as [-> | ->]; repeat constructor; compute_done.
  - destruct Hlog as [-> | ->]; repeat constructor; (by left) || (by right).
  - destruct Hlog as [-> | ->]; [by exists [ "build_webgui" ] | by exists []].
  - subst run. rewrite run_pipeline_unfold.
    destruct (String.eqb_spec "master" ref) as [<-|_]; [done|].
    destruct (_ && _); [destruct (jr_ok r3)|];
      auto using published_s_build, published_s_test.
Qed.

(** C8. [build:nightly] has no [stage] key, so it belongs to the default
    stage [test], the first of the pipeline: every run starts with
    [build:nightly] and [test_webgui], both in stage [test], and whatever
    follows belongs to the stages [build] and [publish]. *)
Theorem nightly_runs_in_test_stage ref :
  let l := log (run_pipeline w gitlab_ci ref checkout caches0) in
  get "stage" build_nightly = None
  ∧ job_stage build_nightly = "test"
  ∧ default_stage = "test"
  ∧ stage_index gitlab_ci "test" = Some 0
  ∧ jobs_of_stage gitlab_ci ref "test" =
      [ ("build:nightly", build_nightly); ("test_webgui", test_webgui) ]
  ∧ ∃ a b rest,
      l = a :: b :: rest
      ∧ jr_name a = "build:nightly" ∧ jr_stage a = "test"
      ∧ jr_name b = "test_webgui" ∧ jr_stage b = "test"
      ∧ Forall (λ r, stage_before gitlab_ci "test" (jr_stage r)) rest.
Proof.
  intros l. repeat (split; [reflexivity|]).
  split; [apply jobs_of_stage_test|].
  assert (∀ s, s = "build" ∨ s = "publish" → stage_before gitlab_ci "test" s)
    as Hlater.
  { intros s [-> | ->]; [exists 0, 1 | exists 0, 2];
      (split; [reflexivity|split; [reflexivity|lia]]). }
  by_log_cases ref l Hl; rewrite Hl; eexists _, _, _;
    (split; [reflexivity|]); repeat (split; [reflexivity|]);
    repeat constructor; apply Hlater; (by left) || (by right).
Qed.


(** What the [publish_webgui] script uploads, started in the project
    directory: nothing, or one site for [qaul.surge.sh] in which
    [200.html] and [index.html] both hold the content [index.html] had in
    [webgui/dist/]. *)
Lemma publish_script_sites m :
  cwd m = [] →
  let r := run_script w (job_script publish_webgui) m in
  (r.2 = false ∧ sites r.1 = sites m)
  ∨ (∃ c site,
       files m !! (dist ++ [ "index.html" ]) = Some c
       ∧ r.2 = true
       ∧ cwd r.1 = dist
       ∧ sites r.1 = sites m ++ [ ("qaul.surge.sh", site) ]
       ∧ site !! [ "index.html" ] = Some c
       ∧ site !! [ "200.html" ] = Some c).
Proof.
  intros Hcwd r. subst r. rewrite publish_script_run by done.
  destruct (is_dir dist (files m)); [|by left].
  destruct (files m !! (dist ++ [ "index.html" ])) as [c|] eqn:Hc; [|by left].
  cbn zeta. destruct (upload_ok w _ _); [|by left].
  right. exists c, (subtree dist (<[dist ++ [ "200.html" ] := c]> (files m))).
  repeat (split; [done|]). split.
  - rewrite subtree_lookup, lookup_insert_ne; done.
  - by rewrite subtree_lookup, lookup_insert_eq.
Qed.

(** With the entry page in place and the upload accepted, the script
    succeeds. *)
Lemma publish_script_ok m c :
  cwd m = [] →
  files m !! (dist ++ [ "index.html" ]) = Some c →
  (∀ site, upload_ok w "qaul.surge.sh" site = true) →
  (run_script w (job_script publish_webgui) m).2 = true.
Proof.
  intros Hcwd Hc Hup. rewrite publish_script_run by done.
  rewrite (is_dir_file dist "index.html" [] _ c) by done.
  change (dist ++ [ "index.html" ]) with [ "webgui"; "dist"; "index.html" ] in *.
  rewrite Hc. cbn zeta. by rewrite Hup.
Qed.


Lemma artifacts_commit_ok j r st :
  jr_ok r = true →
  artifacts (commit j r st)
  = keep (job_artifacts j) (files (jr_end r)) ∪ artifacts st.
Proof. intros H. unfold commit. by rewrite H. Qed.


(** Stage [test] declares no artifacts, so it hands none on. *)
Lemma artifacts_s_test : artifacts (s_test w checkout caches0) = ∅.
Proof.
  unfold s_test, s_nightly, commit.
  change (job_artifacts test_webgui) with (@nil string).
  change (job_artifacts build_nightly) with (@nil string).
  destruct (jr_ok r2), (jr_ok r1); cbn [artifacts];
    rewrite ?keep_nil, ?(left_id_L ∅ (∪)); reflexivity.
Qed.

(** C5. [build_webgui] declares the artifact path [webgui/dist/]: every
    file its script leaves below [webgui/dist/] is in the work tree on
    which the later [publish_webgui] job starts, with the same content;
    the [publish] stage comes after the [build] stage, and the publish
    script begins by entering [webgui/dist/], where it stays. *)
Theorem dist_artifact_reaches_publish ref :
  let run := run_pipeline w gitlab_ci ref checkout caches0 in
  job_artifacts build_webgui = [ "webgui/dist/" ]
  ∧ segments "webgui/dist/" = dist
  ∧ stage_before gitlab_ci (job_stage build_webgui) (job_stage publish_webgui)
  ∧ head (job_script publish_webgui) = Some "cd webgui/dist/"
  ∧ (∀ rb rp,
       rb ∈ log run → jr_name rb = "build_webgui" →
       rp ∈ log run → jr_name rp = "publish_webgui" →
       jr_ok rb = true
       ∧ (∀ k c, dist `prefix_of` k →
                 files (jr_end rb) !! k = Some c →
                 jr_workspace rp !! k = Some c)
       ∧ (jr_ok rp = true → cwd (jr_end rp) = dist)).
Proof.
  intros run. repeat (split; [reflexivity|]).
  split; [exists 1, 2; by repeat split; try lia|].
  split; [reflexivity|].
  intros rb rp Hb Hnb Hp Hnp. subst run.
  by_log_cases ref (log (run_pipeline w gitlab_ci ref checkout caches0)) Hl;
    rewrite Hl in Hb, Hp; in_list Hb; in_list Hp; try done.
  split; [done|]. split.
  - intros k c Hk Hc.
    change (jr_workspace r4)
      with (workspace checkout (artifacts (s_build w checkout caches0))
              publish_webgui (s_build w checkout caches0)).
    unfold workspace, s_build at 1.
    rewrite artifacts_commit_ok by done.
    do 2 apply lookup_union_Some_l.
    apply keep_lookup_Some. split; [done|].
    apply Exists_cons. by left.
  - intros Hok.
    pose proof (publish_script_sites
                  {| cwd := [];
                     files := workspace checkout
                                (artifacts (s_build w checkout caches0))
                                publish_webgui (s_build w checkout caches0);
                     sites := published (s_build w checkout caches0) |}
                  eq_refl) as Hrun.
    cbn zeta in Hrun.
    destruct Hrun as [[Hf _] | (_ & _ & _ & _ & Hcwd & _)]; [|exact Hcwd].
    change (jr_ok r4 = false) in Hf. congruence.
Qed.


End PipelineClaims.

(* ===================================================================== *)
(** * The properties on the sample world *)
(* ===================================================================== *)

Section SampleRuns.
Import Yaml GitlabCi Pipeline Runner Run Sample.

Local Abbreviation master_run :=
  (run_pipeline sample_world gitlab_ci "master" sample_checkout ∅).
Local Abbreviation s_test_run := (r_test sample_world sample_checkout ∅).
Local Abbreviation s_build_run := (r_build sample_world sample_checkout ∅).
Local Abbreviation s_publish_run := (r_publish sample_world sample_checkout ∅).

(** On [master] all four jobs run and succeed. *)
Lemma sample_master_log :
  log master_run
  = [ r_nightly sample_world sample_checkout ∅; s_test_run;
      s_build_run; s_publish_run ]
  ∧ jr_ok <$> log master_run = [ true; true; true; true ].
Proof. split; vm_compute; reflexivity. Qed.

(** [test_webgui] is executed before [build_webgui]. *)
Lemma stage_order_witness :
  log master_run !! 1 = Some s_test_run
  ∧ log master_run !! 2 = Some s_build_run
  ∧ stage_before gitlab_ci (jr_stage s_test_run) (jr_stage s_build_run)
  ∧ 1 < 2.
Proof.
  assert (log master_run !! 1 = Some s_test_run) as H1
    by (vm_compute; reflexivity).
  assert (log master_run !! 2 = Some s_build_run) as H2
    by (vm_compute; reflexivity).
  assert (stage_before gitlab_ci (jr_stage s_test_run) (jr_stage s_build_run))
    as Hs by (exists 0, 1; repeat split; lia).
  split; [exact H1|]. split; [exact H2|]. split; [exact Hs|].
  exact (proj2 (proj2 (proj2
           (stage_order sample_world sample_checkout ∅ "master")))
           1 2 _ _ H1 H2 Hs).
Defined.

(** A run for the branch [develop]. *)
Lemma publish_only_on_master_witness :
  "develop" ≠ "master"
  ∧ let run := run_pipeline sample_world gitlab_ci "develop" sample_checkout ∅ in
    job_only publish_webgui = Some [ "master" ]
    ∧ Forall (λ r, jr_name r ≠ "publish_webgui") (log run)
    ∧ Forall (λ r, jr_stage r = "test" ∨ jr_stage r = "build") (log run)
    ∧ (jr_name <$> log run)
        `prefix_of` [ "build:nightly"; "test_webgui"; "build_webgui" ]
    ∧ published run = [].
Proof.
  assert ("develop" ≠ "master") as Hne by discriminate.
  split; [exact Hne|].
  exact (publish_only_on_master sample_world sample_checkout ∅ "develop" Hne).
Defined.

(** The entry page built by [build_webgui] reaches [publish_webgui]. *)
Lemma dist_artifact_reaches_publish_witness :
  let k := dist ++ [ "index.html" ] in
  s_build_run ∈ log master_run
  ∧ s_publish_run ∈ log master_run
  ∧ files (jr_end s_build_run) !! k = Some "<!DOCTYPE html>"
  ∧ jr_ok s_build_run = true
  ∧ jr_workspace s_publish_run !! k = Some "<!DOCTYPE html>"
  ∧ cwd (jr_end s_publish_run) = dist.
Proof.
  intros k.
  assert (s_build_run ∈ log master_run) as Hb.
  { apply (list_elem_of_lookup_2 _ 2). vm_compute. reflexivity. }
  assert (s_publish_run ∈ log master_run) as Hp.
  { apply (list_elem_of_lookup_2 _ 3). vm_compute. reflexivity. }
  assert (files (jr_end s_build_run) !! k = Some "<!DOCTYPE html>") as Hk
    by (vm_compute; reflexivity).
  assert (jr_ok s_publish_run = true) as Hok by (vm_compute; reflexivity).
  destruct (proj2 (proj2 (proj2 (proj2
              (dist_artifact_reaches_publish
                 sample_world sample_checkout ∅ "master"))))
              s_build_run s_publish_run Hb eq_refl Hp eq_refl)
    as (Hokb & Hfiles & Hcwd).
  split; [exact Hb|]. split; [exact Hp|]. split; [exact Hk|].
  split; [exact Hokb|]. split; [|exact (Hcwd Hok)].
  apply Hfiles; [by exists [ "index.html" ]|exact Hk].
Defined.



End SampleRuns.

(* ===================================================================== *)
(** * Further properties of the route table *)
(* ===================================================================== *)

Section RouteTableMore.
Import Ember RouterJs.
Variable config : environment.

(** Cutting never yields the empty list. *)
Lemma split_on_cons sep s : ∃ w ws, split_on sep s = w :: ws.
Proof.
  induction s as [|c s (w & ws & IH)]; simpl; [by eauto|].
  destruct (Ascii.eqb c sep); [by eauto|]. rewrite IH. by eauto.
Qed.







End RouteTableMore.


(* ===================================================================== *)
(** * Further properties of the scripts *)
(* ===================================================================== *)

Section ScriptsMore.
Import Yaml GitlabCi Pipeline Runner Run.
Variable w : world.




End ScriptsMore.

(* ===================================================================== *)
(** * Further properties of a run *)
(* ===================================================================== *)

Section PipelineMore.
Import Yaml GitlabCi Pipeline Runner Run.
Variable w : world.
Variable checkout : gmap (list string) string.
Variable caches0 : gmap string (gmap (list string) string).

Local Abbreviation r1 := (r_nightly w checkout caches0).
Local Abbreviation r2 := (r_test w checkout caches0).
Local Abbreviation r3 := (r_build w checkout caches0).
Local Abbreviation r4 := (r_publish w checkout caches0).

Local Ltac in_list H :=
  repeat (apply elem_of_cons in H as [-> | H]);
  [ .. | by apply elem_of_nil in H ].

Local Ltac by_log_cases ref l Hl :=
  destruct (log_cases w checkout caches0 ref)
    as [Hl | [(? & ? & Hl) | (? & ? & ? & ? & Hl)]];
  fold l in Hl.


Lemma keep_lookup_other (paths : list string)
    (fs : gmap (list string) string) (k : list string) :
  ¬ under (segments <$> paths) k → keep paths fs !! k = None.
Proof.
  intros Hk. apply eq_None_not_Some. intros [c Hc].
  by apply keep_lookup_Some in Hc as [_ ?].
Qed.

Lemma keep_lookup_under (paths : list string)
    (fs : gmap (list string) string) (k : list string) :
  under (segments <$> paths) k → keep paths fs !! k = fs !! k.
Proof.
  intros Hk. destruct (fs !! k) as [c|] eqn:E.
  - by apply keep_lookup_Some.
  - apply eq_None_not_Some. intros [c Hc].
    apply keep_lookup_Some in Hc as [? _]. congruence.
Qed.

Lemma under_dist (k : list string) :
  under (segments <$> [ "webgui/dist/" ]) k ↔ dist `prefix_of` k.
Proof.
  unfold under. change (segments <$> [ "webgui/dist/" ]) with [ dist ].
  rewrite Exists_cons, Exists_nil. split; [by intros [?|[]]|by left].
Qed.


Lemma artifacts_s_build :
  jr_ok r3 = true →
  artifacts (s_build w checkout caches0)
  = keep [ "webgui/dist/" ] (files (jr_end r3)).
Proof.
  intros Hok. unfold s_build. rewrite artifacts_commit_ok by done.
  by rewrite artifacts_s_test, (right_id_L ∅ (∪)).
Qed.

(** The work tree of [publish_webgui], file by file. *)
Lemma workspace_r_publish (k : list string) :
  jr_ok r3 = true →
  jr_workspace r4 !! k =
    if decide (dist `prefix_of` k)
    then match files (jr_end r3) !! k with
         | Some c => Some c
         | None => checkout !! k
         end
    else checkout !! k.
Proof.
  intros Hok.
  change (jr_workspace r4)
    with (artifacts (s_build w checkout caches0) ∪ (∅ ∪ checkout)).
  rewrite artifacts_s_build, (left_id_L ∅ (∪)) by done.
  destruct (decide (dist `prefix_of` k)) as [Hk|Hk].
  - destruct (files (jr_end r3) !! k) as [c|] eqn:E.
    + apply lookup_union_Some_l. rewrite keep_lookup_under; [done|].
      by apply under_dist.
    + rewrite lookup_union_r; [done|].
      rewrite keep_lookup_under; [done|]. by apply under_dist.
  - rewrite lookup_union_r; [done|].
    apply keep_lookup_other. by rewrite under_dist.
Qed.




(** X8. [publish_webgui] starts on the checkout with the [webgui/dist]
    of [build_webgui] laid over it, and on nothing else: below
    [webgui/dist] a file is the one [build_webgui] left or, failing that,
    the one of the checkout; anywhere else it is the file of the
    checkout.  No cache is restored into it. *)
Theorem publish_starts_on_checkout_and_dist ref rb rp (k : list string) :
  let run := run_pipeline w gitlab_ci ref checkout caches0 in
  rb ∈ log run → jr_name rb = "build_webgui" →
  rp ∈ log run → jr_name rp = "publish_webgui" →
  jr_workspace rp !! k =
    if decide (dist `prefix_of` k)
    then match files (jr_end rb) !! k with
         | Some c => Some c
         | None => checkout !! k
         end
    else checkout !! k.
Proof.
  intros run Hb Hnb Hp Hnp. subst run.
  by_log_cases ref (log (run_pipeline w gitlab_ci ref checkout caches0)) Hl;
    rewrite Hl in Hb, Hp; in_list Hb; in_list Hp; try done.
  by apply workspace_r_publish.
Qed.


Lemma cache_confined_commit j r st :
  job_cache j = None ∨ job_cache j = Some ("yarn", [ "webgui/.yarn" ]) →
  cache_confined caches0 (caches st) →
  cache_confined caches0 (caches (commit j r st)).
Proof.
  intros Hj Hst. unfold commit. destruct (jr_ok r); [|exact Hst].
  destruct Hj as [-> | ->]; [exact Hst|]. cbn [caches].
  intros key t Hkey.
  apply lookup_insert_Some in Hkey as [[<- <-] | [_ Hkey]]; [|by apply Hst].
  right. split; [done|]. intros k [c Hc].
  apply keep_lookup_Some in Hc as [_ Hu].
  apply Exists_cons in Hu as [Hu | Hu]; [exact Hu|].
  by apply Exists_nil in Hu.
Qed.

(** X10. The only cache a run writes is the one of key [yarn], and what
    it stores there lies below [webgui/.yarn]: every cache entry after a
    run either was there before it, or is the [yarn] entry holding such
    files only.  A run in which [test_webgui] failed leaves all caches as
    they were. *)
Theorem caches_only_yarn ref :
  let run := run_pipeline w gitlab_ci ref checkout caches0 in
  cache_confined caches0 (caches run)
  ∧ (∀ key, key ≠ "yarn" → caches run !! key = caches0 !! key)
  ∧ (∀ r, r ∈ log run → jr_name r = "test_webgui" → jr_ok r = false →
          caches run = caches0).
Proof.
  intros run.
  assert (cache_confined caches0 (caches (s_test w checkout caches0))) as H2.
  { unfold s_test, s_nightly.
    apply cache_confined_commit; [by right|].
    apply cache_confined_commit; [by left|].
    intros key t Hkey. by left. }
  assert (cache_confined caches0 (caches (s_build w checkout caches0))) as H3.
  { unfold s_build. apply cache_confined_commit; [by right|exact H2]. }
  assert (cache_confined caches0 (caches (s_publish w checkout caches0))) as H4.
  { unfold s_publish. apply cache_confined_commit; [by left|exact H3]. }
  assert (∀ j r st key,
            job_cache j = None ∨ job_cache j = Some ("yarn", [ "webgui/.yarn" ]) →
            key ≠ "yarn" →
            caches (commit j r st) !! key = caches st !! key) as Hframe.
  { intros j r st key Hj Hkey. unfold commit.
    destruct (jr_ok r); [|done]. destruct Hj as [-> | ->]; [done|].
    cbn [caches]. by rewrite lookup_insert_ne. }
  assert (∀ key, key ≠ "yarn" →
            caches (s_test w checkout caches0) !! key = caches0 !! key) as F2.
  { intros key Hkey. unfold s_test, s_nightly.
    rewrite (Hframe test_webgui _ _ key (or_intror eq_refl) Hkey).
    by rewrite (Hframe build_nightly _ _ key (or_introl eq_refl) Hkey). }
  assert (∀ key, key ≠ "yarn" →
            caches (s_build w checkout caches0) !! key = caches0 !! key) as F3.
  { intros key Hkey. unfold s_build.
    rewrite (Hframe build_webgui _ _ key (or_intror eq_refl) Hkey).
    by apply F2. }
  assert (∀ key, key ≠ "yarn" →
            caches (s_publish w checkout caches0) !! key = caches0 !! key) as F4.
  { intros key Hkey. unfold s_publish.
    rewrite (Hframe publish_webgui _ _ key (or_introl eq_refl) Hkey).
    by apply F3. }
  subst run. rewrite run_pipeline_unfold. split; [|split].
  - destruct (_ && _); [|exact H2]. destruct (jr_ok r3); [|exact H3].
    by destruct (String.eqb "master" ref).
  - intros key Hkey. destruct (_ && _); [|by apply F2].
    destruct (jr_ok r3); [|by apply F3].
    destruct (String.eqb "master" ref); [by apply F4|by apply F3].
  - intros r Hr Hname Hfail.
    assert (r = r2) as ->.
    { rewrite <- run_pipeline_unfold in Hr.
      by_log_cases ref (log (run_pipeline w gitlab_ci ref checkout caches0)) Hl;
        rewrite Hl in Hr; in_list Hr; done. }
    rewrite Hfail, andb_false_r.
    unfold s_test, s_nightly, commit. rewrite Hfail. cbn [caches].
    by destruct (jr_ok r1).
Qed.

End PipelineMore.

(* ===================================================================== *)
(** * The deployment environment *)
(* ===================================================================== *)

Section Environment.
Import Yaml GitlabCi Pipeline Runner.

(** X11. The environment [publish_webgui] declares agrees with what its
    script does: the environment's URL is the [http] address of the
    domain the [surge] command (the last line of the script) uploads to,
    and the environment is named after the one ref the job runs for. *)
Theorem environment_matches_upload :
  ∃ env line domain ref,
    get "environment" publish_webgui = Some env
    ∧ last (job_script publish_webgui) = Some line
    ∧ head (words line) = Some "surge"
    ∧ flag_value "--domain" (words line) = Some domain
    ∧ get "url" env = Some (Str ("http://" +:+ domain +:+ "/"))
    ∧ job_only publish_webgui = Some [ ref ]
    ∧ get "name" env = Some (Str ref).
Proof. by eexists _, _, _, _. Qed.

End Environment.

(* ===================================================================== *)
(** * The further properties on the sample world *)
(* ===================================================================== *)

Section SampleRunsMore.
Import Yaml GitlabCi Pipeline Runner Run Sample.

Local Abbreviation master_run :=
  (run_pipeline sample_world gitlab_ci "master" sample_checkout ∅).
Local Abbreviation s_test_run := (r_test sample_world sample_checkout ∅).
Local Abbreviation s_build_run := (r_build sample_world sample_checkout ∅).
Local Abbreviation s_publish_run := (r_publish sample_world sample_checkout ∅).





(** The entry page in the work tree of [publish_webgui] is the built
    one. *)
Lemma publish_starts_on_checkout_and_dist_witness :
  let k := dist ++ [ "index.html" ] in
  s_build_run ∈ log master_run
  ∧ s_publish_run ∈ log master_run
  ∧ jr_workspace s_publish_run !! k =
      if decide (dist `prefix_of` k)
      then match files (jr_end s_build_run) !! k with
           | Some c => Some c
           | None => sample_checkout !! k
           end
      else sample_checkout !! k.
Proof.
  intros k.
  assert (s_build_run ∈ log master_run) as Hb.
  { apply (list_elem_of_lookup_2 _ 2). vm_compute. reflexivity. }
  assert (s_publish_run ∈ log master_run) as Hp.
  { apply (list_elem_of_lookup_2 _ 3). vm_compute. reflexivity. }
  split; [exact Hb|]. split; [exact Hp|].
  exact (publish_starts_on_checkout_and_dist
           sample_world sample_checkout ∅ "master"
           s_build_run s_publish_run k Hb eq_refl Hp eq_refl).
Defined.


(** The cache written by the sample run. *)
Lemma caches_only_yarn_witness :
  ∃ t, caches master_run !! "yarn" = Some t
       ∧ ∀ k, is_Some (t !! k) → segments "webgui/.yarn" `prefix_of` k.
Proof.
  exists (default ∅ (caches master_run !! "yarn")).
  assert (caches master_run !! "yarn"
          = Some (default ∅ (caches master_run !! "yarn"))) as Ht
    by (vm_compute; reflexivity).
  split; [exact Ht|].
  destruct (proj1 (caches_only_yarn sample_world sample_checkout ∅ "master")
              "yarn" _ Ht) as [Hold | [_ Hnew]].
  - by rewrite lookup_empty in Hold.
  - exact Hnew.
Defined.

End SampleRunsMore.
